(** * Wardrobe environment console: simulation and automation control loop

    A shallow embedding of the "firmware" part of [App.tsx] (the sensor
    simulator run by the 2-second interval, the hysteresis automation
    effect and the manual toggle handler) and of
    [services/geminiService.ts] (the report request with its fallback).

    Conventions of the embedding.
    - A JavaScript [number] is an exact rational ([Q]).  The code only adds,
      subtracts, multiplies by constants, compares and clamps; rounding of
      IEEE doubles is not part of the model.  The one place where the
      source can produce [NaN] (an average over an empty array) is modelled
      by [option Q].
    - [Math.random()] and [Date.now()] are inputs of the functions that
      call them, in the order of the calls.
    - A React state cell is a field of [AppState]; an updater passed to a
      [set...] function is a function from the previous to the next value.
    - [alert] and [console.error] are recorded in an output list. *)

From Stdlib Require Import QArith Qminmax Lqa ZArith List String Bool Lia.
Import ListNotations.

Local Open Scope Q_scope.

(** ** JavaScript primitives used by the sources *)

Module JS.

(** [x < y] on numbers. *)
Definition ltb (x y : Q) : bool :=
  match x ?= y with
  | Lt => true
  | _ => false
  end.

(** [x > y] on numbers. *)
Definition gtb (x y : Q) : bool := ltb y x.

(** [Math.max(a, b)] and [Math.min(a, b)]. *)
Definition Math_max (a b : Q) : Q := Qmax a b.
Definition Math_min (a b : Q) : Q := Qmin a b.

(** [arr.slice(-k)] for a positive [k]: the last [k] elements, or the
    whole array when it is shorter. *)
Definition slice_last {A : Type} (k : nat) (arr : list A) : list A :=
  skipn (List.length arr - k) arr.

(** [a || b] on a possibly undefined string: the left operand unless it
    is falsy ([undefined] or the empty string). *)
Definition or_string (a : option string) (b : string) : string :=
  match a with
  | Some EmptyString => b
  | Some s => s
  | None => b
  end.

End JS.

Infix "<?" := JS.ltb (at level 70, no associativity) : Q_scope.
Infix ">?" := JS.gtb (at level 70, no associativity) : Q_scope.

(** ** types.ts *)

Record SensorData : Type := mkSensorData {
  timestamp : Z;
  temperature : Q;
  humidity : Q;
  moldIndex : Q
}.

Record DeviceState : Type := mkDeviceState {
  fan : bool;
  dehumidifier : bool;
  uvLight : bool;
  autoMode : bool
}.

Record Thresholds : Type := mkThresholds {
  maxHumidity : Q;
  triggerUVPeriod : Q
}.

(** [keyof DeviceState]. *)
Inductive DeviceKey : Type :=
| Kfan
| Kdehumidifier
| KuvLight
| KautoMode.

(** [prev[device]] and [{ ...prev, [device]: v }]. *)
Definition get_device (k : DeviceKey) (d : DeviceState) : bool :=
  match k with
  | Kfan => fan d
  | Kdehumidifier => dehumidifier d
  | KuvLight => uvLight d
  | KautoMode => autoMode d
  end.

Definition set_device (k : DeviceKey) (v : bool) (d : DeviceState) : DeviceState :=
  match k with
  | Kfan => mkDeviceState v (dehumidifier d) (uvLight d) (autoMode d)
  | Kdehumidifier => mkDeviceState (fan d) v (uvLight d) (autoMode d)
  | KuvLight => mkDeviceState (fan d) (dehumidifier d) v (autoMode d)
  | KautoMode => mkDeviceState (fan d) (dehumidifier d) (uvLight d) v
  end.

(** ** App.tsx: simulation helpers *)

(** [generateInitialData]: the loop [for (let i = 20; i > 0; i--)] pushes
    one reading per iteration and draws three random numbers for it.
    [rnd n] is the result of the [n]-th call of [Math.random()]. *)
Fixpoint generateInitialData_loop (now : Z) (rnd : nat -> Q) (drawn : nat)
    (i : nat) (data : list SensorData) : list SensorData :=
  match i with
  | O => data
  | S i' =>
      generateInitialData_loop now rnd (drawn + 3) i'
        (data ++ [ {| timestamp := (now - Z.of_nat i * 3000)%Z;
                      temperature := 24 + rnd drawn * 2;
                      humidity := 50 + rnd (drawn + 1)%nat * 10;
                      moldIndex := 5 + rnd (drawn + 2)%nat * 5 |} ])
  end.

Definition generateInitialData (now : Z) (rnd : nat -> Q) : list SensorData :=
  generateInitialData_loop now rnd 0 20 [].

(** The updater given to [setSensors] by the interval callback, without
    its nested [setHistory]: the next reading computed from [prev] and the
    [devices] captured by the effect.  [rnd_temp] and [rnd_hum] are the
    two [Math.random()] results, [now] is [Date.now()]. *)
Definition tick (now : Z) (rnd_temp rnd_hum : Q) (devices : DeviceState)
    (prev : SensorData) : SensorData :=
  let newTemp := temperature prev in
  let newHum := humidity prev in
  let newMold := moldIndex prev in
  (* Natural Environmental drift *)
  let newTemp := newTemp + (rnd_temp - 0.5) * 0.1 in
  let newHum := newHum + (rnd_hum - 0.5) * 0.5 in
  (* Device Effects *)
  let '(newHum, newTemp) :=
    if fan devices then (newHum - 0.4, newTemp - 0.05) else (newHum, newTemp) in
  let '(newHum, newTemp) :=
    if dehumidifier devices then (newHum - 1.2, newTemp + 0.1)
    else (newHum, newTemp) in
  let '(newMold, newTemp) :=
    if uvLight devices then (newMold - 2.0, newTemp + 0.05)
    else
      let newMold := if newHum >? 70 then newMold + 0.5 else newMold in
      let newMold := if newHum >? 80 then newMold + 1.0 else newMold in
      (newMold, newTemp) in
  (* Constraints *)
  let newHum := JS.Math_max 30 (JS.Math_min 99 newHum) in
  let newMold := JS.Math_max 0 (JS.Math_min 100 newMold) in
  {| timestamp := now;
     temperature := newTemp;
     humidity := newHum;
     moldIndex := newMold |}.

(** The updater given to [setHistory]: [h => [...h.slice(-50), newData]]. *)
Definition push_history (newData : SensorData) (h : list SensorData)
    : list SensorData :=
  JS.slice_last 50 h ++ [newData].

(** ** App.tsx: automation logic *)

(** The updater given to [setDevices] by the automation effect. *)
Definition automation_update (sensors : SensorData) (thresholds : Thresholds)
    (prev : DeviceState) : DeviceState :=
  let next := prev in
  let changed := false in
  (* Humidity Control Logic *)
  let '(next, changed) :=
    if humidity sensors >? maxHumidity thresholds then
      if negb (fan prev) && negb (dehumidifier prev) then
        (set_device Kdehumidifier true (set_device Kfan true next), true)
      else (next, changed)
    else if humidity sensors <? maxHumidity thresholds - 5 then
      if fan prev || dehumidifier prev then
        (set_device Kdehumidifier false (set_device Kfan false next), true)
      else (next, changed)
    else (next, changed) in
  (* Mold Safety Logic *)
  let '(next, changed) :=
    if (moldIndex sensors >? 40) && negb (uvLight prev) then
      (set_device KuvLight true next, true)
    else if (moldIndex sensors <? 5) && uvLight prev then
      (set_device KuvLight false next, true)
    else (next, changed) in
  if changed then next else prev.

(** The automation effect: [if (!devices.autoMode) return;] and then the
    update of the device state. *)
Definition automation (sensors : SensorData) (thresholds : Thresholds)
    (devices : DeviceState) : DeviceState :=
  if negb (autoMode devices) then devices
  else automation_update sensors thresholds devices.

(** ** App.tsx: handlers *)

Definition DeviceKey_eqb (a b : DeviceKey) : bool :=
  match a, b with
  | Kfan, Kfan | Kdehumidifier, Kdehumidifier
  | KuvLight, KuvLight | KautoMode, KautoMode => true
  | _, _ => false
  end.

Definition auto_mode_alert : string :=
  "请先关闭自动模式 (Auto Mode) 才能手动控制设备。".

(** [toggleDevice]: the next device state and the alerts shown. *)
Definition toggleDevice (device : DeviceKey) (devices : DeviceState)
    : DeviceState * list string :=
  if negb (DeviceKey_eqb device KautoMode) && autoMode devices then
    (devices, [auto_mode_alert])
  else
    (set_device device (negb (get_device device devices)) devices, []).

(** ** services/geminiService.ts *)

Module Gemini.

(** A thrown value or rejection reason. *)
Definition JsError : Type := string.

(** The outcome of awaiting a promise. *)
Inductive Settled (A : Type) : Type :=
| Fulfilled (value : A)
| Rejected (reason : JsError).
Arguments Fulfilled {A} value.
Arguments Rejected {A} reason.

Record GenerateContentParameters : Type := mkParameters {
  model : string;
  contents : string;
  systemInstruction : string;
  thinkingBudget : Z
}.

Record GenerateContentResponse : Type := mkResponse {
  text : option string
}.

Definition no_report : string := "暂时无法生成分析报告。".
Definition connection_failed : string := "连接 AI 服务失败，请检查网络设置。".
Definition console_prefix : string := "Gemini API Error:".

Section Service.

(** [x.toFixed(digits)] and the interpolation [`${x}`] of a finite
    number; [generateContent] is the [ai.models.generateContent]
    request of the SDK client. *)
Variable toFixed : Q -> nat -> string.
Variable toString : Q -> string.
Variable generateContent :
  GenerateContentParameters -> Settled GenerateContentResponse.

(** [toFixed] on a number that may be [NaN]. *)
Definition toFixed_nan (x : option Q) (digits : nat) : string :=
  match x with
  | Some q => toFixed q digits
  | None => "NaN"
  end.

(** [recentHistory.reduce((acc, cur) => acc + cur.humidity, 0) /
    recentHistory.length]; on the empty array this is [0 / 0]. *)
Definition average_humidity (recentHistory : list SensorData) : option Q :=
  match recentHistory with
  | [] => None
  | _ :: _ =>
      Some (fold_left (fun acc cur => acc + humidity cur) recentHistory 0
            / inject_Z (Z.of_nat (List.length recentHistory)))
  end.

Definition build_prompt (currentData : SensorData) (avgHum : option Q)
    (thresholds : Thresholds) : string :=
  ("
      你是一个专业的智能家居卫生和衣物护理专家AI助手。
      
      当前衣柜传感器读数：
      - 温度: " ++ toFixed (temperature currentData) 1 ++ "°C
      - 湿度: " ++ toFixed (humidity currentData) 1
        ++ "% (设定的报警阈值是 " ++ toString (maxHumidity thresholds) ++ "%)
      - 霉菌风险指数: " ++ toFixed (moldIndex currentData) 0 ++ " / 100
      
      历史数据背景 (最近20次读数平均值):
      - 平均湿度: " ++ toFixed_nan avgHum 1 ++ "%
      
      请根据以上数据，生成一份简短的衣柜健康状态报告 (150字以内)。
      请包含以下内容：
      1. 评估当前是否适合霉菌生长。
      2. 给出具体的行动建议 (例如：检查密封条、建议开启紫外线杀菌、放入除湿袋等)。
      3. 语气要贴心、专业。
      
      请使用 Markdown 格式回答，可以使用 emoji 图标增加可读性。
    ")%string.

(** The request sent to the model. *)
Definition report_request (currentData : SensorData)
    (history : list SensorData) (thresholds : Thresholds)
    : GenerateContentParameters :=
  let recentHistory := JS.slice_last 20 history in
  let avgHum := average_humidity recentHistory in
  let prompt := build_prompt currentData avgHum thresholds in
  {| model := "gemini-2.5-flash";
     contents := prompt;
     systemInstruction := "你是一个乐于助人的衣柜管家。";
     thinkingBudget := 0 |}.

(** The body of the [try] block: it completes with the returned string
    or with what was thrown. *)
Definition try_block (currentData : SensorData)
    (history : list SensorData) (thresholds : Thresholds)
    : Settled string :=
  match generateContent (report_request currentData history thresholds) with
  | Fulfilled response => Fulfilled (JS.or_string (text response) no_report)
  | Rejected reason => Rejected reason
  end.

(** [analyzeWardrobeEnvironment]: how the returned promise settles, and
    what was written with [console.error]. *)
Definition analyzeWardrobeEnvironment (currentData : SensorData)
    (history : list SensorData) (thresholds : Thresholds)
    : Settled string * list (string * JsError) :=
  match try_block currentData history thresholds with
  | Fulfilled result => (Fulfilled result, [])
  | Rejected error => (Fulfilled connection_failed, [(console_prefix, error)])
  end.

End Service.

End Gemini.

(** ** App.tsx: the component state and its transitions *)

Record AppState : Type := mkAppState {
  sensors : SensorData;
  history : list SensorData;
  devices : DeviceState;
  thresholds : Thresholds;
  aiAnalysis : option string;
  isAnalyzing : bool
}.

(** The state of the first render; [now] is the [Date.now()] of the first
    reading, [now'] the one inside [generateInitialData]. *)
Definition initial_state (now now' : Z) (rnd : nat -> Q) : AppState :=
  {| sensors := {| timestamp := now; temperature := 24.5;
                   humidity := 55; moldIndex := 10 |};
     history := generateInitialData now' rnd;
     devices := {| fan := false; dehumidifier := false;
                   uvLight := false; autoMode := true |};
     thresholds := {| maxHumidity := 65; triggerUVPeriod := 24 |};
     aiAnalysis := None;
     isAnalyzing := false |}.

(** One firing of the interval: [setSensors] with the updater [tick], and
    inside it [setHistory] with the new reading, each updater applied
    once. *)
Definition interval_tick (now : Z) (rnd_temp rnd_hum : Q) (st : AppState)
    : AppState :=
  let newData := tick now rnd_temp rnd_hum (devices st) (sensors st) in
  {| sensors := newData;
     history := push_history newData (history st);
     devices := devices st;
     thresholds := thresholds st;
     aiAnalysis := aiAnalysis st;
     isAnalyzing := isAnalyzing st |}.

(** The automation effect on the component state. *)
Definition automation_effect (st : AppState) : AppState :=
  {| sensors := sensors st;
     history := history st;
     devices := automation (sensors st) (thresholds st) (devices st);
     thresholds := thresholds st;
     aiAnalysis := aiAnalysis st;
     isAnalyzing := isAnalyzing st |}.

(** A tick followed by the automation effect its new reading triggers. *)
Definition step (input : Z * Q * Q) (st : AppState) : AppState :=
  let '(now, rnd_temp, rnd_hum) := input in
  automation_effect (interval_tick now rnd_temp rnd_hum st).

Definition run (inputs : list (Z * Q * Q)) (st : AppState) : AppState :=
  fold_left (fun s input => step input s) inputs st.

(** A click on a device button. *)
Definition click_toggle (device : DeviceKey) (st : AppState)
    : AppState * list string :=
  let '(devices', alerts) := toggleDevice device (devices st) in
  ({| sensors := sensors st;
      history := history st;
      devices := devices';
      thresholds := thresholds st;
      aiAnalysis := aiAnalysis st;
      isAnalyzing := isAnalyzing st |}, alerts).

(** [handleGeminiAnalysis], from the click to its end: the state, the
    console output, and the rejection of the handler's own promise if the
    awaited call rejects (the two last [set...] calls are then skipped). *)
Definition handleGeminiAnalysis (toFixed : Q -> nat -> string)
    (toString : Q -> string)
    (generateContent : Gemini.GenerateContentParameters ->
                       Gemini.Settled Gemini.GenerateContentResponse)
    (st : AppState)
    : AppState * list (string * Gemini.JsError) * option Gemini.JsError :=
  let '(settled, console) :=
    Gemini.analyzeWardrobeEnvironment toFixed toString generateContent
      (sensors st) (history st) (thresholds st) in
  match settled with
  | Gemini.Fulfilled result =>
      ({| sensors := sensors st;
          history := history st;
          devices := devices st;
          thresholds := thresholds st;
          aiAnalysis := Some result;
          isAnalyzing := false |}, console, None)
  | Gemini.Rejected reason =>
      ({| sensors := sensors st;
          history := history st;
          devices := devices st;
          thresholds := thresholds st;
          aiAnalysis := aiAnalysis st;
          isAnalyzing := true |}, console, Some reason)
  end.

(** ** The simulator tick as the specification words it

    The tick of the design document: six steps applied in order to a
    running value, with the two drifts given directly. *)

Module Spec.

Record Running : Type := mkRunning {
  run_temperature : Q;
  run_humidity : Q;
  run_moldIndex : Q
}.

Definition natural_drift (dT dH : Q) (r : Running) : Running :=
  mkRunning (run_temperature r + dT) (run_humidity r + dH) (run_moldIndex r).

Definition ventilation_effect (active : bool) (r : Running) : Running :=
  if active
  then mkRunning (run_temperature r - 0.05) (run_humidity r - 0.4) (run_moldIndex r)
  else r.

Definition drying_effect (active : bool) (r : Running) : Running :=
  if active
  then mkRunning (run_temperature r + 0.1) (run_humidity r - 1.2) (run_moldIndex r)
  else r.

Definition sterilization_effect (active : bool) (r : Running) : Running :=
  if active
  then mkRunning (run_temperature r + 0.05) (run_humidity r) (run_moldIndex r - 2.0)
  else r.

(** Only when sterilization is inactive: +0.5 above 70, and 1.0 more
    (1.5 in total) above 80. *)
Definition passive_mold_growth (sterilization : bool) (r : Running) : Running :=
  if sterilization then r
  else
    let growth :=
      if run_humidity r >? 80 then 1.5
      else if run_humidity r >? 70 then 0.5
      else 0 in
    mkRunning (run_temperature r) (run_humidity r) (run_moldIndex r + growth).

Definition clamp (lo hi x : Q) : Q :=
  if x <? lo then lo else if x >? hi then hi else x.

Definition final_clamp (r : Running) : Running :=
  mkRunning (run_temperature r)
            (clamp 30 99 (run_humidity r))
            (clamp 0 100 (run_moldIndex r)).

Definition tick (now : Z) (dT dH : Q) (actuators : DeviceState)
    (previous : SensorData) : SensorData :=
  let r0 := mkRunning (temperature previous) (humidity previous)
                      (moldIndex previous) in
  let r1 := natural_drift dT dH r0 in
  let r2 := ventilation_effect (fan actuators) r1 in
  let r3 := drying_effect (dehumidifier actuators) r2 in
  let r4 := sterilization_effect (uvLight actuators) r3 in
  let r5 := passive_mold_growth (uvLight actuators) r4 in
  let r6 := final_clamp r5 in
  {| timestamp := now;
     temperature := run_temperature r6;
     humidity := run_humidity r6;
     moldIndex := run_moldIndex r6 |}.

End Spec.

(** Two readings with the same time stamp and equal numbers. *)
Definition SensorData_equiv (a b : SensorData) : Prop :=
  timestamp a = timestamp b /\
  temperature a == temperature b /\
  humidity a == humidity b /\
  moldIndex a == moldIndex b.

(** ** Derived quantities used in the statements *)

(** The temperature of the next reading, as the sum the tick accumulates. *)
Definition running_temperature (rnd_temp : Q) (devices : DeviceState)
    (prev : SensorData) : Q :=
  temperature prev + (rnd_temp - 0.5) * 0.1
  + (if fan devices then - 0.05 else 0)
  + (if dehumidifier devices then 0.1 else 0)
  + (if uvLight devices then 0.05 else 0).

(** The readings produced by a run, oldest first. *)
Fixpoint readings (inputs : list (Z * Q * Q)) (st : AppState)
    : list SensorData :=
  match inputs with
  | [] => []
  | input :: rest =>
      let st' := step input st in
      sensors st' :: readings rest st'
  end.

(** ** Sample inputs *)

Definition reading0 : SensorData :=
  {| timestamp := 0; temperature := 24.5; humidity := 55; moldIndex := 10 |}.

Definition reading_with (hum mold : Q) : SensorData :=
  {| timestamp := 0; temperature := 24.5; humidity := hum; moldIndex := mold |}.

Definition default_thresholds : Thresholds :=
  {| maxHumidity := 65; triggerUVPeriod := 24 |}.

Definition humid_idle : DeviceState :=
  {| fan := false; dehumidifier := false; uvLight := false; autoMode := true |}.

Definition all_on : DeviceState :=
  {| fan := true; dehumidifier := true; uvLight := true; autoMode := true |}.

Definition fan_only : DeviceState :=
  {| fan := true; dehumidifier := false; uvLight := false; autoMode := true |}.

Definition drying_pair_on : DeviceState :=
  {| fan := true; dehumidifier := true; uvLight := false; autoMode := true |}.

Definition manual_idle : DeviceState :=
  {| fan := false; dehumidifier := false; uvLight := false; autoMode := false |}.

Definition manual_state : AppState :=
  {| sensors := reading_with 90 60;
     history := [];
     devices := manual_idle;
     thresholds := default_thresholds;
     aiAnalysis := None;
     isAnalyzing := false |}.

Definition sixty_inputs : list (Z * Q * Q) :=
  map (fun n => ((Z.of_nat n * 2000)%Z, 0.5, 0.5)) (seq 1 60).

Definition offline : Gemini.GenerateContentParameters ->
                     Gemini.Settled Gemini.GenerateContentResponse :=
  fun _ => Gemini.Rejected "fetch failed"%string.

Definition no_digits : Q -> nat -> string := fun _ _ => "0"%string.

(** ** Further parts of App.tsx and of the components *)

(** The ranges the simulator clamps to. *)
Definition in_range (r : SensorData) : Prop :=
  30 <= humidity r <= 99 /\ 0 <= moldIndex r <= 100.


(** Successive firings of the interval while the device state, and so the
    effect that captured it, stays the same. *)
Definition simulate (devices : DeviceState) (inputs : list (Z * Q * Q))
    (prev : SensorData) : SensorData :=
  fold_left (fun s input => let '(now, rnd_temp, rnd_hum) := input in
                            tick now rnd_temp rnd_hum devices s)
            inputs prev.







(** ** components/HistoryChart.tsx *)

Module Chart.



Section ChartData.

(** [new Date(t).toLocaleTimeString([], ...)], [x.toFixed(digits)] and
    [parseFloat(s)] of the platform. *)
Variable toLocaleTimeString : Z -> string.
Variable toFixed : Q -> nat -> string.
Variable parseFloat : string -> Q.



End ChartData.

End Chart.

(** ** App.tsx: the install prompt *)

Module Install.

(** A captured [beforeinstallprompt] event, by identity. *)
Definition PromptEvent : Type := nat.

Record State : Type := mkState {
  deferredPrompt : option PromptEvent;
  showInstallBanner : bool;
  isIOS : bool
}.

(** The [beforeinstallprompt] listener. *)
Definition handler (e : PromptEvent) (st : State) : State :=
  {| deferredPrompt := Some e;
     showInstallBanner := true;
     isIOS := isIOS st |}.

(** [handleInstallClick]: the next state and the events whose [prompt()]
    was called; [userChoice e] is the [outcome] the awaited
    [e.userChoice] resolves with. *)
Definition handleInstallClick (userChoice : PromptEvent -> string)
    (st : State) : State * list PromptEvent :=
  match deferredPrompt st with
  | Some e =>
      let outcome := userChoice e in
      ({| deferredPrompt := None;
          showInstallBanner :=
            if String.eqb outcome "accepted" then false
            else showInstallBanner st;
          isIOS := isIOS st |}, [e])
  | None => (st, [])
  end.

(** The banner is rendered under [showInstallBanner && !isIOS]. *)
Definition banner_visible (st : State) : bool :=
  showInstallBanner st && negb (isIOS st).

End Install.

(** * Properties *)

(** ** Number comparisons and clamping *)

Lemma ltb_spec (x y : Q) : BoolSpec (x < y) (y <= x) (x <? y).
Proof.
  unfold JS.ltb.
  destruct (x ?= y) eqn:E; constructor.
  - apply Qeq_alt in E. rewrite E. apply Qle_refl.
  - now apply Qlt_alt.
  - apply Qlt_le_weak. now apply Qgt_alt.
Qed.

Lemma ltb_true_iff (x y : Q) : (x <? y) = true <-> x < y.
Proof.
  destruct (ltb_spec x y) as [H | H]; split; intro H'; auto; try discriminate.
  exfalso. apply (Qlt_not_le _ _ H'), H.
Qed.

Lemma gtb_true_iff (x y : Q) : (x >? y) = true <-> y < x.
Proof. unfold JS.gtb. apply ltb_true_iff. Qed.

Ltac compare_cases :=
  unfold JS.gtb in *;
  repeat match goal with
         | |- context [JS.ltb ?x ?y] => destruct (ltb_spec x y)
         end.

Lemma Math_max_cases (a b : Q) :
  (a <= b /\ JS.Math_max a b == b) \/ (b <= a /\ JS.Math_max a b == a).
Proof.
  unfold JS.Math_max.
  destruct (Q.max_spec a b) as [[H E] | [H E]]; [left | right]; split; auto.
  now apply Qlt_le_weak.
Qed.

Lemma Math_min_cases (a b : Q) :
  (a <= b /\ JS.Math_min a b == a) \/ (b <= a /\ JS.Math_min a b == b).
Proof.
  unfold JS.Math_min.
  destruct (Q.min_spec a b) as [[H E] | [H E]]; [left | right]; split; auto.
  now apply Qlt_le_weak.
Qed.

(** [Math.max(lo, Math.min(hi, x))] lands in [[lo, hi]] whatever [x] is. *)
Lemma clamped_in_range (lo hi x : Q) :
  lo <= hi ->
  lo <= JS.Math_max lo (JS.Math_min hi x) <= hi.
Proof.
  intros Hlh.
  destruct (Math_min_cases hi x) as [[H1 E1] | [H1 E1]];
    destruct (Math_max_cases lo (JS.Math_min hi x)) as [[H2 E2] | [H2 E2]];
    rewrite E2; rewrite ?E1; split; lra.
Qed.

(** The nested [Math.max]/[Math.min] of the source is the three-way clamp
    of the design document. *)
Lemma clamp_is_max_min (lo hi x : Q) :
  lo <= hi ->
  JS.Math_max lo (JS.Math_min hi x) == Spec.clamp lo hi x.
Proof.
  intros Hlh. unfold Spec.clamp.
  destruct (Math_min_cases hi x) as [[H1 E1] | [H1 E1]];
    destruct (Math_max_cases lo (JS.Math_min hi x)) as [[H2 E2] | [H2 E2]];
    rewrite E2; rewrite E1 in *; compare_cases; lra.
Qed.

(** ** The simulator tick *)

Lemma tick_humidity_range now r1 r2 dev prev :
  30 <= humidity (tick now r1 r2 dev prev) <= 99.
Proof.
  unfold tick.
  destruct (fan dev), (dehumidifier dev), (uvLight dev); cbn [humidity];
    apply clamped_in_range; lra.
Qed.

Lemma tick_moldIndex_range now r1 r2 dev prev :
  0 <= moldIndex (tick now r1 r2 dev prev) <= 100.
Proof.
  unfold tick.
  destruct (fan dev), (dehumidifier dev), (uvLight dev); cbn [moldIndex];
    apply clamped_in_range; lra.
Qed.

Lemma tick_temperature now r1 r2 dev prev :
  temperature (tick now r1 r2 dev prev) == running_temperature r1 dev prev.
Proof.
  unfold tick, running_temperature.
  destruct (fan dev), (dehumidifier dev), (uvLight dev); cbn [temperature]; lra.
Qed.

(** C1.  A tick from a reading with humidity in [30, 99] and mold index in
    [0, 100], under any actuator combination and any two random draws in
    [0, 1), gives a reading with humidity in [30, 99] and mold index in
    [0, 100]; its temperature is the accumulated sum, with no clamp. *)
Theorem tick_preserves_ranges (now : Z) (rnd_temp rnd_hum : Q)
    (devices : DeviceState) (prev : SensorData) :
  30 <= humidity prev <= 99 ->
  0 <= moldIndex prev <= 100 ->
  0 <= rnd_temp < 1 ->
  0 <= rnd_hum < 1 ->
  let next := tick now rnd_temp rnd_hum devices prev in
  30 <= humidity next <= 99 /\
  0 <= moldIndex next <= 100 /\
  temperature next == running_temperature rnd_temp devices prev.
Proof.
  intros _ _ _ _ next. subst next.
  split; [apply tick_humidity_range |].
  split; [apply tick_moldIndex_range | apply tick_temperature].
Qed.

Lemma tick_preserves_ranges_witness :
  let next := tick 2000 0.25 0.75 all_on reading0 in
  30 <= humidity next <= 99 /\
  0 <= moldIndex next <= 100 /\
  temperature next == running_temperature 0.25 all_on reading0.
Proof.
  apply (tick_preserves_ranges 2000 0.25 0.75 all_on reading0);
    cbn; split; lra.
Defined.

Lemma tick_equiv_spec now r1 r2 dev prev :
  SensorData_equiv (tick now r1 r2 dev prev)
                   (Spec.tick now ((r1 - 0.5) * 0.1) ((r2 - 0.5) * 0.5) dev prev).
Proof.
  unfold SensorData_equiv, tick, Spec.tick.
  destruct (fan dev), (dehumidifier dev), (uvLight dev);
    cbn -[Qplus Qminus Qmult JS.Math_max JS.Math_min Spec.clamp JS.gtb];
    (split; [reflexivity |]);
    (split; [reflexivity |]);
    (split; [apply clamp_is_max_min; lra |]);
    rewrite clamp_is_max_min by lra;
    try reflexivity;
    compare_cases; try reflexivity; try lra;
    match goal with
    | |- Spec.clamp _ _ ?a == Spec.clamp _ _ ?b =>
        assert (E : a == b) by lra;
        unfold Spec.clamp; compare_cases; lra
    end.
Qed.

(** The affine maps from a draw to a drift are onto the two half-open
    intervals: every pair of drifts there comes from draws in [0, 1). *)
Lemma every_drift_has_a_draw (dT dH : Q) :
  - 0.05 <= dT < 0.05 -> - 0.25 <= dH < 0.25 ->
  exists rnd_temp rnd_hum : Q,
    0 <= rnd_temp < 1 /\ 0 <= rnd_hum < 1 /\
    (rnd_temp - 0.5) * 0.1 == dT /\
    (rnd_hum - 0.5) * 0.5 == dH.
Proof.
  intros HT HH.
  exists (dT * 10 + 0.5), (dH * 2 + 0.5).
  repeat split; lra.
Qed.

(** C8.  With the two random draws in [0, 1), the tick of the source is the
    six-step tick of the design document, applied in its order to the
    running values before the final clamp, for the temperature drift
    [(rnd_temp - 0.5) * 0.1], which lies in [-0.05, 0.05), and the humidity
    drift [(rnd_hum - 0.5) * 0.5], which lies in [-0.25, 0.25). *)
Theorem tick_applies_spec_steps (now : Z) (rnd_temp rnd_hum : Q)
    (devices : DeviceState) (prev : SensorData) :
  0 <= rnd_temp < 1 ->
  0 <= rnd_hum < 1 ->
  let dT := (rnd_temp - 0.5) * 0.1 in
  let dH := (rnd_hum - 0.5) * 0.5 in
  - 0.05 <= dT < 0.05 /\
  - 0.25 <= dH < 0.25 /\
  SensorData_equiv (tick now rnd_temp rnd_hum devices prev)
                   (Spec.tick now dT dH devices prev).
Proof.
  intros H1 H2 dT dH. subst dT dH.
  split; [lra |]. split; [lra |]. apply tick_equiv_spec.
Qed.

Lemma tick_applies_spec_steps_witness :
  - 0.05 <= (0.25 - 0.5) * 0.1 < 0.05 /\
  - 0.25 <= (0.75 - 0.5) * 0.5 < 0.25 /\
  SensorData_equiv
    (tick 2000 0.25 0.75 humid_idle reading0)
    (Spec.tick 2000 ((0.25 - 0.5) * 0.1) ((0.75 - 0.5) * 0.5) humid_idle reading0).
Proof.
  apply (tick_applies_spec_steps 2000 0.25 0.75 humid_idle reading0);
    split; lra.
Defined.

(** ** The history buffer *)

Lemma slice_last_length {A : Type} (k : nat) (l : list A) :
  List.length (JS.slice_last k l) = Nat.min k (List.length l).
Proof. unfold JS.slice_last. rewrite length_skipn. lia. Qed.

Lemma slice_last_all {A : Type} (k : nat) (l : list A) :
  (List.length l <= k)%nat -> JS.slice_last k l = l.
Proof.
  intros H. unfold JS.slice_last.
  replace (List.length l - k)%nat with O by lia. reflexivity.
Qed.

(** Cutting the front part first does not change a later cut that keeps
    no more than what the first cut and the appended part hold. *)
Lemma slice_last_app_slice {A : Type} (n m : nat) (h t : list A) :
  (n <= m + List.length t)%nat ->
  JS.slice_last n (JS.slice_last m h ++ t) = JS.slice_last n (h ++ t).
Proof.
  intros Hn. unfold JS.slice_last.
  rewrite !length_app, length_skipn.
  set (a := (List.length h - m)%nat).
  assert (Ha : (a <= List.length h)%nat) by (subst a; lia).
  replace (List.length h + List.length t - n)%nat
    with ((List.length h - a + List.length t - n) + a)%nat by (subst a; lia).
  rewrite <- skipn_skipn.
  f_equal.
  rewrite skipn_app.
  replace (a - List.length h)%nat with O by lia.
  reflexivity.
Qed.

Lemma push_history_length (x : SensorData) (h : list SensorData) :
  List.length (push_history x h) = S (Nat.min 50 (List.length h)).
Proof.
  unfold push_history. rewrite length_app, slice_last_length. cbn. lia.
Qed.

Lemma step_history (input : Z * Q * Q) (st : AppState) :
  history (step input st) = push_history (sensors (step input st)) (history st).
Proof. destruct input as [[now r1] r2]. reflexivity. Qed.

Lemma run_cons input rest st : run (input :: rest) st = run rest (step input st).
Proof. reflexivity. Qed.

Lemma readings_length inputs st :
  List.length (readings inputs st) = List.length inputs.
Proof.
  revert st. induction inputs as [| input rest IH]; intros st; cbn; auto.
Qed.

(** After a run the history is the last 51 entries of the old history
    followed by the new readings. *)
Lemma run_history (inputs : list (Z * Q * Q)) (st : AppState) :
  (List.length (history st) <= 51)%nat ->
  history (run inputs st) = JS.slice_last 51 (history st ++ readings inputs st).
Proof.
  revert st. induction inputs as [| input rest IH]; intros st Hlen.
  - cbn [run fold_left readings]. rewrite app_nil_r.
    symmetry. now apply slice_last_all.
  - rewrite run_cons, IH.
    + cbn [readings]. rewrite step_history. unfold push_history.
      rewrite <- app_assoc. cbn [app].
      apply slice_last_app_slice. cbn [List.length]. lia.
    + rewrite step_history, push_history_length. lia.
Qed.



(** C2.  Sixty ticks from a history of 20 entries leave 51 entries, not 50:
    the history is then the last 51 of the seed entries followed by the
    sixty readings, which are the 51 most recent readings, oldest first. *)
Theorem history_after_60_ticks (inputs : list (Z * Q * Q)) (st : AppState) :
  List.length (history st) = 20%nat ->
  List.length inputs = 60%nat ->
  List.length (history (run inputs st)) = 51%nat /\
  history (run inputs st) = JS.slice_last 51 (readings inputs st).
Proof.
  intros Hseed Hin.
  assert (E : history (run inputs st)
              = JS.slice_last 51 (history st ++ readings inputs st))
    by (apply run_history; lia).
  split.
  - rewrite E, slice_last_length, length_app, readings_length. lia.
  - rewrite E.
    rewrite <- (slice_last_app_slice 51 0 (history st)).
    + unfold JS.slice_last at 2. rewrite Nat.sub_0_r, skipn_all. reflexivity.
    + rewrite readings_length. lia.
Qed.

Lemma history_after_60_ticks_witness :
  List.length (history (run sixty_inputs (initial_state 0 0 (fun _ => 0.5))))
  = 51%nat /\
  history (run sixty_inputs (initial_state 0 0 (fun _ => 0.5)))
  = JS.slice_last 51 (readings sixty_inputs (initial_state 0 0 (fun _ => 0.5))).
Proof.
  apply (history_after_60_ticks sixty_inputs (initial_state 0 0 (fun _ => 0.5)));
    reflexivity.
Defined.

(** ** The automation controller *)

Ltac controller_cases prev :=
  unfold automation, automation_update;
  destruct prev as [f d u a]; cbn [fan dehumidifier uvLight autoMode] in *;
  subst; cbn [negb];
  unfold JS.gtb;
  repeat match goal with
         | |- context [JS.ltb ?x ?y] => destruct (ltb_spec x y)
         end;
  repeat match goal with
         | b : bool |- _ => destruct b
         end;
  cbn.

(** Whatever the state and the reading, the humidity logic either leaves
    the fan and the dehumidifier as they were or writes one value to both. *)
Lemma fan_dehumidifier_written_together s t prev :
  let next := automation s t prev in
  (fan next = fan prev /\ dehumidifier next = dehumidifier prev) \/
  fan next = dehumidifier next.
Proof. controller_cases prev; auto. Qed.

(** C3.  The claim fails on the code where exactly one of the two is on
    (a state left by manual toggles before automation is enabled again):
    with only the fan on, automation enabled and humidity 70 over a
    threshold of 65, an evaluation changes nothing and the dehumidifier
    stays off.  The turn-on branch tests [!prev.fan && !prev.dehumidifier],
    while the turn-off branch tests [prev.fan || prev.dehumidifier]. *)
Theorem humidity_on_skipped_when_only_fan_on :
  autoMode fan_only = true /\
  maxHumidity default_thresholds < humidity (reading_with 70 10) /\
  automation (reading_with 70 10) default_thresholds fan_only = fan_only /\
  dehumidifier (automation (reading_with 70 10) default_thresholds fan_only)
  = false.
Proof. repeat split; reflexivity. Qed.

(** So it is in every state with exactly one of the two on, at any
    humidity above the threshold. *)
Lemma humidity_on_skipped_in_mixed_state s t prev :
  autoMode prev = true ->
  fan prev = negb (dehumidifier prev) ->
  maxHumidity t < humidity s ->
  fan (automation s t prev) = fan prev /\
  dehumidifier (automation s t prev) = dehumidifier prev.
Proof. intros Ha Hmix Hhum. controller_cases prev; auto; lra. Qed.

(** What the humidity logic does guarantee: with automation enabled and the
    fan and the dehumidifier in the same position (both off or both on), a
    reading with humidity above [maxHumidity] leaves both on after one
    evaluation; and from such a state no evaluation, at any reading and
    thresholds, ends with only one of the two on. *)
Lemma humidity_on_from_agreeing_state (s : SensorData) (t : Thresholds)
    (prev : DeviceState) :
  autoMode prev = true ->
  fan prev = dehumidifier prev ->
  maxHumidity t < humidity s ->
  (fan (automation s t prev) = true /\
   dehumidifier (automation s t prev) = true) /\
  (forall s' t',
      fan (automation s' t' prev) = dehumidifier (automation s' t' prev)).
Proof.
  intros Ha Hagree Hhum. split.
  - controller_cases prev; auto; lra.
  - intros s' t'. clear Hhum. controller_cases prev; auto.
Qed.

Lemma humidity_on_from_agreeing_state_witness :
  (fan (automation (reading_with 66 10) default_thresholds humid_idle) = true /\
   dehumidifier (automation (reading_with 66 10) default_thresholds humid_idle)
   = true) /\
  (forall s' t',
      fan (automation s' t' humid_idle)
      = dehumidifier (automation s' t' humid_idle)).
Proof.
  apply (humidity_on_from_agreeing_state (reading_with 66 10)
           default_thresholds humid_idle);
    [reflexivity | reflexivity | cbn; lra].
Defined.

(** C4.  With automation enabled and both the fan and the dehumidifier on,
    an evaluation leaves both as they were for every humidity in
    [maxHumidity - 5, maxHumidity], and it ends with both off exactly when
    the humidity is below [maxHumidity - 5]. *)
Theorem humidity_hysteresis (s : SensorData) (t : Thresholds)
    (prev : DeviceState) :
  autoMode prev = true ->
  fan prev = true ->
  dehumidifier prev = true ->
  let next := automation s t prev in
  (maxHumidity t - 5 <= humidity s <= maxHumidity t ->
   fan next = fan prev /\ dehumidifier next = dehumidifier prev) /\
  ((fan next = false /\ dehumidifier next = false) <->
   humidity s < maxHumidity t - 5).
Proof.
  intros Ha Hf Hd next. subst next. split.
  - intros [Hlo Hhi]. controller_cases prev; auto; lra.
  - split.
    + intros [Hf' Hd']. revert Hf' Hd'.
      controller_cases prev; intros; try discriminate; lra.
    + intros Hlow. controller_cases prev; auto; lra.
Qed.

Lemma humidity_hysteresis_witness :
  let next := automation (reading_with 62 10) default_thresholds drying_pair_on in
  (maxHumidity default_thresholds - 5 <= humidity (reading_with 62 10)
     <= maxHumidity default_thresholds ->
   fan next = fan drying_pair_on /\
   dehumidifier next = dehumidifier drying_pair_on) /\
  ((fan next = false /\ dehumidifier next = false) <->
   humidity (reading_with 62 10) < maxHumidity default_thresholds - 5).
Proof.
  apply (humidity_hysteresis (reading_with 62 10) default_thresholds
           drying_pair_on); reflexivity.
Defined.

(** C5.  With automation enabled: a mold index above 40 with the UV light
    off turns it on; a mold index below 5 with the UV light on turns it
    off; a mold index in [5, 40] leaves it as it was. *)
Theorem mold_safety (s : SensorData) (t : Thresholds) (prev : DeviceState) :
  autoMode prev = true ->
  let next := automation s t prev in
  (40 < moldIndex s -> uvLight prev = false -> uvLight next = true) /\
  (moldIndex s < 5 -> uvLight prev = true -> uvLight next = false) /\
  (5 <= moldIndex s <= 40 -> uvLight next = uvLight prev).
Proof.
  intros Ha next. subst next.
  split; [| split].
  - intros Hm Hu. controller_cases prev; auto; lra.
  - intros Hm Hu. controller_cases prev; auto; lra.
  - intros [Hlo Hhi]. controller_cases prev; auto; lra.
Qed.

Lemma mold_safety_witness :
  let next := automation (reading_with 55 41) default_thresholds humid_idle in
  (40 < moldIndex (reading_with 55 41) -> uvLight humid_idle = false ->
   uvLight next = true) /\
  (moldIndex (reading_with 55 41) < 5 -> uvLight humid_idle = true ->
   uvLight next = false) /\
  (5 <= moldIndex (reading_with 55 41) <= 40 ->
   uvLight next = uvLight humid_idle).
Proof.
  apply (mold_safety (reading_with 55 41) default_thresholds humid_idle).
  reflexivity.
Defined.

(** The two readings the design document names. *)
Example mold_41_turns_uv_on :
  uvLight (automation (reading_with 55 41) default_thresholds humid_idle) = true.
Proof. reflexivity. Qed.

Example mold_4_turns_uv_off :
  uvLight (automation (reading_with 55 4) default_thresholds all_on) = false.
Proof. reflexivity. Qed.

(** C7.  With [autoMode] off the automation effect returns before its
    update: the device state, and with it the whole component state, is
    the one before the effect. *)
Theorem automation_off_is_identity (st : AppState) :
  autoMode (devices st) = false ->
  automation (sensors st) (thresholds st) (devices st) = devices st /\
  automation_effect st = st.
Proof.
  intros Ha.
  assert (E : automation (sensors st) (thresholds st) (devices st) = devices st)
    by (unfold automation; rewrite Ha; reflexivity).
  split; [exact E |].
  unfold automation_effect. rewrite E. destruct st; reflexivity.
Qed.

Lemma automation_off_is_identity_witness :
  automation (sensors manual_state) (thresholds manual_state)
             (devices manual_state) = devices manual_state /\
  automation_effect manual_state = manual_state.
Proof. apply (automation_off_is_identity manual_state). reflexivity. Defined.

(** C10.  An evaluation of the controller never changes [autoMode]: the
    update and the gated effect both return a state with the flag of the
    input, so only the fan, the dehumidifier and the UV light can differ. *)
Theorem automation_keeps_autoMode (s : SensorData) (t : Thresholds)
    (prev : DeviceState) :
  autoMode (automation_update s t prev) = autoMode prev /\
  autoMode (automation s t prev) = autoMode prev.
Proof.
  split.
  - unfold automation_update.
    destruct prev as [f d u a]; cbn [fan dehumidifier uvLight autoMode].
    unfold JS.gtb.
    repeat match goal with
           | |- context [JS.ltb ?x ?y] => destruct (JS.ltb x y)
           end;
      destruct f, d, u; reflexivity.
  - controller_cases prev; reflexivity.
Qed.

(** ** Manual control *)

(** With automation off a click flips the chosen device and nothing else. *)
Lemma toggleDevice_manual (device : DeviceKey) (devs : DeviceState) :
  autoMode devs = false ->
  toggleDevice device devs
  = (set_device device (negb (get_device device devs)) devs, []).
Proof.
  intros Ha. unfold toggleDevice. rewrite Ha, andb_false_r. reflexivity.
Qed.

(** C6.  While [autoMode] is on, a toggle of the fan, the dehumidifier or
    the UV light is rejected: the device state is returned as it was and
    one alert is shown.  A toggle of [autoMode] itself is never rejected:
    it flips the flag, keeps the three devices and shows no alert. *)
Theorem toggle_gate (device : DeviceKey) (devs : DeviceState) :
  device <> KautoMode ->
  autoMode devs = true ->
  toggleDevice device devs = (devs, [auto_mode_alert]) /\
  (forall devs' : DeviceState,
      toggleDevice KautoMode devs'
      = ({| fan := fan devs';
            dehumidifier := dehumidifier devs';
            uvLight := uvLight devs';
            autoMode := negb (autoMode devs') |}, [])).
Proof.
  intros Hdev Ha. split.
  - unfold toggleDevice. rewrite Ha.
    destruct device; try reflexivity. now elim Hdev.
  - intros devs'. unfold toggleDevice. reflexivity.
Qed.

Lemma toggle_gate_witness :
  toggleDevice KuvLight humid_idle = (humid_idle, [auto_mode_alert]) /\
  (forall devs' : DeviceState,
      toggleDevice KautoMode devs'
      = ({| fan := fan devs';
            dehumidifier := dehumidifier devs';
            uvLight := uvLight devs';
            autoMode := negb (autoMode devs') |}, [])).
Proof.
  apply (toggle_gate KuvLight humid_idle); [discriminate | reflexivity].
Defined.

(** ** The report request *)

(** The promise of [analyzeWardrobeEnvironment] is fulfilled whatever the
    request to the model does. *)
Lemma analyzeWardrobeEnvironment_fulfilled toFixed toString generateContent
    currentData hist thr :
  exists result : string,
    fst (Gemini.analyzeWardrobeEnvironment toFixed toString generateContent
           currentData hist thr) = Gemini.Fulfilled result.
Proof.
  unfold Gemini.analyzeWardrobeEnvironment.
  destruct (Gemini.try_block _ _ _ _ _ _) as [result | reason]; cbn; eauto.
Qed.

(** C9.  If the request to the model is rejected, the promise of
    [analyzeWardrobeEnvironment] is fulfilled (not rejected) with the fixed
    fallback string, the error going to the console only; and
    [handleGeminiAnalysis] then ends without an error, stores the fallback
    as the analysis and leaves the sensors, the history, the devices and
    the thresholds as they were. *)
Theorem report_failure_gives_fallback
    (toFixed : Q -> nat -> string) (toString : Q -> string)
    (generateContent : Gemini.GenerateContentParameters ->
                       Gemini.Settled Gemini.GenerateContentResponse)
    (st : AppState) (error : Gemini.JsError) :
  generateContent
    (Gemini.report_request toFixed toString
       (sensors st) (history st) (thresholds st))
  = Gemini.Rejected error ->
  Gemini.analyzeWardrobeEnvironment toFixed toString generateContent
    (sensors st) (history st) (thresholds st)
  = (Gemini.Fulfilled Gemini.connection_failed,
     [(Gemini.console_prefix, error)]) /\
  handleGeminiAnalysis toFixed toString generateContent st
  = ({| sensors := sensors st;
        history := history st;
        devices := devices st;
        thresholds := thresholds st;
        aiAnalysis := Some Gemini.connection_failed;
        isAnalyzing := false |},
     [(Gemini.console_prefix, error)], None).
Proof.
  intros Hrej.
  assert (E : Gemini.analyzeWardrobeEnvironment toFixed toString generateContent
                (sensors st) (history st) (thresholds st)
              = (Gemini.Fulfilled Gemini.connection_failed,
                 [(Gemini.console_prefix, error)])).
  { unfold Gemini.analyzeWardrobeEnvironment, Gemini.try_block.
    rewrite Hrej. reflexivity. }
  split; [exact E |].
  unfold handleGeminiAnalysis. rewrite E. reflexivity.
Qed.

Lemma report_failure_gives_fallback_witness :
  Gemini.analyzeWardrobeEnvironment no_digits (fun _ => "0"%string) offline
    (sensors manual_state) (history manual_state) (thresholds manual_state)
  = (Gemini.Fulfilled Gemini.connection_failed,
     [(Gemini.console_prefix, "fetch failed"%string)]) /\
  handleGeminiAnalysis no_digits (fun _ => "0"%string) offline manual_state
  = ({| sensors := sensors manual_state;
        history := history manual_state;
        devices := devices manual_state;
        thresholds := thresholds manual_state;
        aiAnalysis := Some Gemini.connection_failed;
        isAnalyzing := false |},
     [(Gemini.console_prefix, "fetch failed"%string)], None).
Proof.
  apply (report_failure_gives_fallback no_digits (fun _ => "0"%string) offline
           manual_state "fetch failed"%string).
  reflexivity.
Defined.

(** * Further properties of the sources *)

(** ** The seed history *)




Lemma generateInitialData_loop_timestamps now rnd drawn i data :
  map timestamp (generateInitialData_loop now rnd drawn i data)
  = map timestamp data
    ++ map (fun k => (now - Z.of_nat (i - k) * 3000)%Z) (seq 0 i).
Proof.
  revert drawn data. induction i as [| i IH]; intros drawn data.
  - cbn. now rewrite app_nil_r.
  - cbn [generateInitialData_loop]. rewrite IH, map_app, <- app_assoc.
    f_equal. cbn [map app timestamp seq]. f_equal.
    rewrite <- seq_shift, map_map. reflexivity.
Qed.

(** X2.  The seed readings are in chronological order, 3000 ms apart and
    all in the past: the [k]-th one (from 0) is stamped
    [now - (20 - k) * 3000], so the last one is stamped [now - 3000]. *)
Theorem generateInitialData_timestamps (now : Z) (rnd : nat -> Q) :
  map timestamp (generateInitialData now rnd)
  = map (fun k => (now - Z.of_nat (20 - k) * 3000)%Z) (seq 0 20).
Proof.
  unfold generateInitialData.
  now rewrite generateInitialData_loop_timestamps.
Qed.

(** ** One tick, quantitatively *)

(** The three cases of the nested [Math.max]/[Math.min]. *)
Lemma clamp_spec (lo hi x : Q) :
  lo <= hi ->
  (x < lo /\ JS.Math_max lo (JS.Math_min hi x) == lo) \/
  (lo <= x <= hi /\ JS.Math_max lo (JS.Math_min hi x) == x) \/
  (hi < x /\ JS.Math_max lo (JS.Math_min hi x) == hi).
Proof.
  intros Hlh. rewrite (clamp_is_max_min lo hi x Hlh). unfold Spec.clamp.
  compare_cases.
  - left. split; [assumption | reflexivity].
  - right. right. split; [assumption | reflexivity].
  - right. left. split; [split; assumption | reflexivity].
Qed.




Lemma tick_mold_uv_on now r1 r2 dev prev :
  uvLight dev = true ->
  moldIndex (tick now r1 r2 dev prev)
  == JS.Math_max 0 (JS.Math_min 100 (moldIndex prev - 2)).
Proof.
  intros Hu. unfold tick. rewrite Hu.
  destruct (fan dev), (dehumidifier dev); cbn [moldIndex];
    rewrite !clamp_is_max_min by lra;
    match goal with
    | |- Spec.clamp _ _ ?a == Spec.clamp _ _ ?b =>
        assert (E : a == b) by lra;
        unfold Spec.clamp; compare_cases; lra
    end.
Qed.



(** ** Several ticks under a fixed device state *)

Lemma simulate_cons dev now r1 r2 rest prev :
  simulate dev ((now, r1, r2) :: rest) prev
  = simulate dev rest (tick now r1 r2 dev prev).
Proof. reflexivity. Qed.

Lemma tick_in_range now r1 r2 dev prev : in_range (tick now r1 r2 dev prev).
Proof.
  split; [apply tick_humidity_range | apply tick_moldIndex_range].
Qed.


Lemma inject_nat_succ (n : nat) :
  inject_Z (Z.of_nat (S n)) == inject_Z (Z.of_nat n) + 1.
Proof. rewrite Nat2Z.inj_succ. unfold Z.succ. now rewrite inject_Z_plus. Qed.

Lemma inject_nat_nonneg (n : nat) : 0 <= inject_Z (Z.of_nat n).
Proof.
  change 0 with (inject_Z 0). rewrite <- Zle_Qle. apply Nat2Z.is_nonneg.
Qed.

(** X5.  Under the UV light the mold index falls by exactly 2 per tick
    until it reaches 0 and then stays there: from [m] in [0, 100] it is
    [m - 2n] after [n] ticks while [2n <= m], and 0 from then on. *)
Theorem simulate_uv_clears_mold (devices : DeviceState)
    (inputs : list (Z * Q * Q)) (prev : SensorData) :
  uvLight devices = true ->
  0 <= moldIndex prev <= 100 ->
  let n := inject_Z (Z.of_nat (List.length inputs)) in
  let final := simulate devices inputs prev in
  (2 * n <= moldIndex prev -> moldIndex final == moldIndex prev - 2 * n) /\
  (moldIndex prev <= 2 * n -> moldIndex final == 0).
Proof.
  intros Hu. revert prev.
  induction inputs as [| [[now r1] r2] rest IH]; intros prev Hm n final;
    subst n final.
  - unfold simulate. cbn [fold_left List.length Z.of_nat].
    change (inject_Z 0) with 0. split; intros; lra.
  - rewrite simulate_cons. cbn [List.length]. rewrite inject_nat_succ.
    pose proof (inject_nat_nonneg (List.length rest)) as Hn.
    pose proof (tick_mold_uv_on now r1 r2 devices prev Hu) as Htick.
    pose proof (tick_moldIndex_range now r1 r2 devices prev) as Hrange.
    specialize (IH (tick now r1 r2 devices prev) Hrange).
    cbv zeta in IH. destruct IH as [IH1 IH2].
    destruct (clamp_spec 0 100 (moldIndex prev - 2))
      as [[Hc E] | [[Hc E] | [Hc E]]]; [lra | | |];
      rewrite E in Htick; clear E;
      split; intros H.
    + lra.
    + rewrite IH2; lra.
    + rewrite IH1; lra.
    + rewrite IH2; lra.
    + lra.
    + lra.
Qed.

Lemma simulate_uv_clears_mold_witness :
  let n := inject_Z (Z.of_nat (List.length sixty_inputs)) in
  let final := simulate all_on sixty_inputs reading0 in
  (2 * n <= moldIndex reading0 ->
   moldIndex final == moldIndex reading0 - 2 * n) /\
  (moldIndex reading0 <= 2 * n -> moldIndex final == 0).
Proof.
  apply (simulate_uv_clears_mold all_on sixty_inputs reading0);
    [reflexivity | cbn; split; lra].
Defined.



(** ** More on the automation controller *)

Lemma ltb_compat (x x' y y' : Q) :
  x == x' -> y == y' -> (x <? y) = (x' <? y').
Proof.
  intros Hx Hy.
  destruct (ltb_spec x y), (ltb_spec x' y'); auto; lra.
Qed.

(** X7.  Evaluating the controller again on the same reading and thresholds
    changes nothing more: one evaluation reaches the state it settles in. *)
Theorem automation_idempotent (s : SensorData) (t : Thresholds)
    (prev : DeviceState) :
  automation s t (automation s t prev) = automation s t prev.
Proof. controller_cases prev; try reflexivity; lra. Qed.

(** X8.  With automation enabled, a humidity below [maxHumidity - 5] ends
    with the fan and the dehumidifier both off from every device state,
    also from one where only one of the two was on. *)
Theorem humidity_off_from_every_state (s : SensorData) (t : Thresholds)
    (prev : DeviceState) :
  autoMode prev = true ->
  humidity s < maxHumidity t - 5 ->
  fan (automation s t prev) = false /\
  dehumidifier (automation s t prev) = false.
Proof. intros Ha Hlow. controller_cases prev; auto; lra. Qed.

Lemma humidity_off_from_every_state_witness :
  fan (automation (reading_with 55 10) default_thresholds fan_only) = false /\
  dehumidifier (automation (reading_with 55 10) default_thresholds fan_only)
  = false.
Proof.
  apply (humidity_off_from_every_state (reading_with 55 10) default_thresholds
           fan_only); [reflexivity | cbn; lra].
Defined.

(** X9.  The two halves of the controller do not interfere.  What the
    update makes of the fan and the dehumidifier depends only on the
    humidity, the threshold and those two switches; what it makes of the UV
    light depends only on the mold index and that switch. *)
Theorem sub_controllers_independent (s s' : SensorData) (t t' : Thresholds)
    (prev prev' : DeviceState) :
  (humidity s == humidity s' ->
   maxHumidity t == maxHumidity t' ->
   fan prev = fan prev' ->
   dehumidifier prev = dehumidifier prev' ->
   fan (automation_update s t prev) = fan (automation_update s' t' prev') /\
   dehumidifier (automation_update s t prev)
   = dehumidifier (automation_update s' t' prev')) /\
  (moldIndex s == moldIndex s' ->
   uvLight prev = uvLight prev' ->
   uvLight (automation_update s t prev)
   = uvLight (automation_update s' t' prev')).
Proof.
  unfold automation_update, JS.gtb.
  destruct prev as [f d u a], prev' as [f' d' u' a'];
    cbn [fan dehumidifier uvLight autoMode].
  split.
  - intros Hh Ht -> ->.
    rewrite (ltb_compat (maxHumidity t) (maxHumidity t')
                        (humidity s) (humidity s')) by assumption.
    rewrite (ltb_compat (humidity s) (humidity s')
                        (maxHumidity t - 5) (maxHumidity t' - 5))
      by (try assumption; lra).
    destruct (maxHumidity t' <? humidity s'),
             (humidity s' <? maxHumidity t' - 5),
             (40 <? moldIndex s), (moldIndex s <? 5),
             (40 <? moldIndex s'), (moldIndex s' <? 5),
             f', d', u, u'; split; reflexivity.
  - intros Hm ->.
    rewrite (ltb_compat 40 40 (moldIndex s) (moldIndex s'))
      by (try assumption; reflexivity).
    rewrite (ltb_compat (moldIndex s) (moldIndex s') 5 5)
      by (try assumption; reflexivity).
    destruct (maxHumidity t <? humidity s),
             (humidity s <? maxHumidity t - 5),
             (maxHumidity t' <? humidity s'),
             (humidity s' <? maxHumidity t' - 5),
             (40 <? moldIndex s'), (moldIndex s' <? 5),
             f, d, f', d', u'; reflexivity.
Qed.

Lemma sub_controllers_independent_witness :
  (fan (automation_update (reading_with 70 10) default_thresholds humid_idle)
   = fan (automation_update (reading_with 70 60) default_thresholds manual_idle)
   /\
   dehumidifier (automation_update (reading_with 70 10) default_thresholds
                   humid_idle)
   = dehumidifier (automation_update (reading_with 70 60) default_thresholds
                     manual_idle)) /\
  uvLight (automation_update (reading_with 70 41) default_thresholds humid_idle)
  = uvLight (automation_update (reading_with 40 41) default_thresholds
               drying_pair_on).
Proof.
  split.
  - apply (proj1 (sub_controllers_independent
                    (reading_with 70 10) (reading_with 70 60)
                    default_thresholds default_thresholds
                    humid_idle manual_idle)); reflexivity.
  - apply (proj2 (sub_controllers_independent
                    (reading_with 70 41) (reading_with 40 41)
                    default_thresholds default_thresholds
                    humid_idle drying_pair_on)); reflexivity.
Defined.

(** ** The closed loop *)

Lemma step_devices input st :
  devices (step input st)
  = automation (sensors (step input st)) (thresholds st) (devices st).
Proof. destruct input as [[now r1] r2]. reflexivity. Qed.


Lemma step_sensors_in_range input st : in_range (sensors (step input st)).
Proof. destruct input as [[now r1] r2]. apply tick_in_range. Qed.








(** ** More on manual control *)



(** X13.  With automation off, a click on a button flips that switch and
    leaves each of the other three as it was. *)
Theorem toggle_changes_one_switch (device other : DeviceKey)
    (devs : DeviceState) :
  autoMode devs = false ->
  get_device other (fst (toggleDevice device devs))
  = if DeviceKey_eqb other device then negb (get_device other devs)
    else get_device other devs.
Proof.
  intros Ha. unfold toggleDevice. rewrite Ha, andb_false_r. cbn [fst].
  destruct device, other; reflexivity.
Qed.

Lemma toggle_changes_one_switch_witness :
  get_device Kdehumidifier (fst (toggleDevice Kfan manual_idle))
  = if DeviceKey_eqb Kdehumidifier Kfan
    then negb (get_device Kdehumidifier manual_idle)
    else get_device Kdehumidifier manual_idle.
Proof.
  apply (toggle_changes_one_switch Kfan Kdehumidifier manual_idle).
  reflexivity.
Defined.

(** ** What a run leaves alone, and the history it builds *)

Lemma step_frame input st :
  thresholds (step input st) = thresholds st /\
  autoMode (devices (step input st)) = autoMode (devices st) /\
  aiAnalysis (step input st) = aiAnalysis st /\
  isAnalyzing (step input st) = isAnalyzing st.
Proof.
  destruct input as [[now r1] r2].
  repeat split; try reflexivity.
  cbn [step automation_effect interval_tick devices sensors thresholds].
  generalize (tick now r1 r2 (devices st) (sensors st)) (thresholds st).
  intros s t. controller_cases (devices st); reflexivity.
Qed.

(** X14.  Ticks and the automation they trigger never touch the thresholds,
    the [autoMode] switch, the stored analysis or the busy flag. *)
Theorem run_frame (inputs : list (Z * Q * Q)) (st : AppState) :
  thresholds (run inputs st) = thresholds st /\
  autoMode (devices (run inputs st)) = autoMode (devices st) /\
  aiAnalysis (run inputs st) = aiAnalysis st /\
  isAnalyzing (run inputs st) = isAnalyzing st.
Proof.
  revert st. induction inputs as [| input rest IH]; intros st.
  - repeat split.
  - rewrite run_cons.
    destruct (IH (step input st)) as [H1 [H2 [H3 H4]]].
    destruct (step_frame input st) as [E1 [E2 [E3 E4]]].
    rewrite H1, H2, H3, H4. repeat split; assumption.
Qed.

Lemma push_history_in_range x h :
  in_range x -> Forall in_range h -> Forall in_range (push_history x h).
Proof.
  intros Hx Hh. unfold push_history, JS.slice_last.
  apply Forall_app. split.
  - apply Forall_forall. intros r Hr.
    rewrite Forall_forall in Hh. apply Hh.
    rewrite <- (firstn_skipn (List.length h - 50) h).
    apply in_or_app. now right.
  - constructor; [exact Hx | constructor].
Qed.

(** X15.  If every entry of the history is within the simulator's ranges
    (humidity in [30, 99], mold index in [0, 100]), so is every entry
    after any run; and after a run of at least one tick so is the current
    reading, whatever it was before. *)
Theorem run_history_in_range (inputs : list (Z * Q * Q)) (st : AppState) :
  Forall in_range (history st) ->
  Forall in_range (history (run inputs st)) /\
  (inputs <> [] -> in_range (sensors (run inputs st))).
Proof.
  revert st. induction inputs as [| input rest IH]; intros st Hh.
  - split; [exact Hh | congruence].
  - rewrite run_cons.
    assert (Hs : in_range (sensors (step input st)))
      by apply step_sensors_in_range.
    assert (Hh' : Forall in_range (history (step input st)))
      by (rewrite step_history; now apply push_history_in_range).
    destruct (IH (step input st) Hh') as [IH1 IH2].
    split; [exact IH1 |]. intros _.
    destruct rest as [| input' rest'].
    + exact Hs.
    + apply IH2. discriminate.
Qed.

Lemma run_history_in_range_witness :
  Forall in_range (history (run sixty_inputs manual_state)) /\
  (sixty_inputs <> [] -> in_range (sensors (run sixty_inputs manual_state))).
Proof.
  apply (run_history_in_range sixty_inputs manual_state). constructor.
Defined.








(** ** More on the report request *)






(** X20.  Whatever the model call does (a text, an empty or missing text,
    a rejection), the promise of [analyzeWardrobeEnvironment] is fulfilled
    with a string that is not empty, and the console is written to only
    when that string is the connection-failure message. *)
Theorem report_is_never_empty
    (toFixed : Q -> nat -> string) (toString : Q -> string)
    (generateContent : Gemini.GenerateContentParameters ->
                       Gemini.Settled Gemini.GenerateContentResponse)
    (currentData : SensorData) (hist : list SensorData) (thr : Thresholds) :
  exists result : string,
    fst (Gemini.analyzeWardrobeEnvironment toFixed toString generateContent
           currentData hist thr) = Gemini.Fulfilled result /\
    result <> EmptyString /\
    (snd (Gemini.analyzeWardrobeEnvironment toFixed toString generateContent
            currentData hist thr) = [] \/
     result = Gemini.connection_failed).
Proof.
  unfold Gemini.analyzeWardrobeEnvironment, Gemini.try_block.
  destruct (generateContent _) as [[[[| c s] |]] | reason]; cbn.
  - exists Gemini.no_report. repeat split; [discriminate | now left].
  - exists (String c s). repeat split; [discriminate | now left].
  - exists Gemini.no_report. repeat split; [discriminate | now left].
  - exists Gemini.connection_failed. repeat split; [discriminate | now right].
Qed.

(** X21.  [handleGeminiAnalysis] always runs to its end: for every outcome
    of the model call it leaves the busy flag cleared and a non-empty
    analysis stored, raises nothing, and does not touch the sensors, the
    history, the devices or the thresholds. *)
Theorem handleGeminiAnalysis_completes
    (toFixed : Q -> nat -> string) (toString : Q -> string)
    (generateContent : Gemini.GenerateContentParameters ->
                       Gemini.Settled Gemini.GenerateContentResponse)
    (st : AppState) :
  exists (result : string) (console : list (string * Gemini.JsError)),
    result <> EmptyString /\
    handleGeminiAnalysis toFixed toString generateContent st
    = ({| sensors := sensors st;
          history := history st;
          devices := devices st;
          thresholds := thresholds st;
          aiAnalysis := Some result;
          isAnalyzing := false |}, console, None).
Proof.
  unfold handleGeminiAnalysis, Gemini.analyzeWardrobeEnvironment,
    Gemini.try_block.
  destruct (generateContent _) as [[[[| c s] |]] | reason]; cbn.
  - exists Gemini.no_report, []. split; [discriminate | reflexivity].
  - exists (String c s), []. split; [discriminate | reflexivity].
  - exists Gemini.no_report, []. split; [discriminate | reflexivity].
  - exists Gemini.connection_failed, [(Gemini.console_prefix, reason)].
    split; [discriminate | reflexivity].
Qed.

(** ** The install prompt *)

(** X22.  A click on install that has run to its end has called [prompt()]
    on at most one event and has dropped the captured event, so a later
    click changes nothing and prompts nothing, whatever the user chose. *)
Theorem install_prompt_used_once
    (userChoice userChoice' : Install.PromptEvent -> string)
    (st : Install.State) :
  let st1 := fst (Install.handleInstallClick userChoice st) in
  Install.deferredPrompt st1 = None /\
  (List.length (snd (Install.handleInstallClick userChoice st)) <= 1)%nat /\
  Install.handleInstallClick userChoice' st1 = (st1, []).
Proof.
  unfold Install.handleInstallClick.
  destruct st as [[e |] banner ios]; cbn; repeat split; auto.
Qed.

(** X23.  When the user does not accept the prompt, the banner keeps
    showing (off iOS) although the captured event is gone: its install
    button is then without effect. *)
Theorem install_dismissed_leaves_banner
    (userChoice : Install.PromptEvent -> string)
    (e : Install.PromptEvent) (st : Install.State) :
  userChoice e <> "accepted"%string ->
  Install.isIOS st = false ->
  let st1 := fst (Install.handleInstallClick userChoice
                    (Install.handler e st)) in
  Install.banner_visible st1 = true /\
  Install.deferredPrompt st1 = None /\
  (forall userChoice', Install.handleInstallClick userChoice' st1 = (st1, [])).
Proof.
  intros Hout Hios st1. subst st1.
  unfold Install.handleInstallClick, Install.handler, Install.banner_visible.
  cbn. apply String.eqb_neq in Hout. rewrite Hout, Hios. cbn.
  repeat split.
Qed.

Lemma install_dismissed_leaves_banner_witness :
  let st1 := fst (Install.handleInstallClick (fun _ => "dismissed"%string)
                    (Install.handler 1%nat
                       (Install.mkState None false false))) in
  Install.banner_visible st1 = true /\
  Install.deferredPrompt st1 = None /\
  (forall userChoice', Install.handleInstallClick userChoice' st1 = (st1, [])).
Proof.
  apply (install_dismissed_leaves_banner (fun _ => "dismissed"%string) 1%nat
           (Install.mkState None false false));
    [discriminate | reflexivity].
Defined.

(** ** Manual mode *)

(** X24.  With automation off, ticks leave the devices to the user: a run
    changes none of the four switches, and the reading it ends on is the
    one obtained by ticking under that fixed device state. *)
Theorem manual_run_keeps_devices (inputs : list (Z * Q * Q)) (st : AppState) :
  autoMode (devices st) = false ->
  devices (run inputs st) = devices st /\
  sensors (run inputs st) = simulate (devices st) inputs (sensors st).
Proof.
  revert st. induction inputs as [| [[now r1] r2] rest IH]; intros st Ha.
  - split; reflexivity.
  - rewrite run_cons, simulate_cons.
    assert (Hd : devices (step (now, r1, r2) st) = devices st).
    { rewrite step_devices. unfold automation. now rewrite Ha. }
    assert (Ha' : autoMode (devices (step (now, r1, r2) st)) = false)
      by now rewrite Hd.
    destruct (IH _ Ha') as [IH1 IH2].
    rewrite IH1, IH2, Hd. split; reflexivity.
Qed.

Lemma manual_run_keeps_devices_witness :
  devices (run sixty_inputs manual_state) = devices manual_state /\
  sensors (run sixty_inputs manual_state)
  = simulate (devices manual_state) sixty_inputs (sensors manual_state).
Proof.
  apply (manual_run_keeps_devices sixty_inputs manual_state). reflexivity.
Defined.
